(** * computer_enhance/misc: the two micro-programs [loop.c] and
    [mach_absolute_time.c], embedded as monadic programs over an explicit
    process state, with the properties of their observable behaviour. *)

From Stdlib Require Import ZArith Lia Ascii String.
From stdpp Require Import base option list gmap strings.

Local Open Scope Z_scope.

(** ** Machine integers: the C types the two programs use, as [Z] with the
    wrap-around of each conversion written out. *)
Module CInt.

Definition uint8_modulus : Z := 2 ^ 8.
Definition uint64_modulus : Z := 2 ^ 64.
Definition INT_MAX : Z := 2 ^ 31 - 1.

(** [(uint8_t) z] *)
Definition to_uint8 (z : Z) : Z := z mod uint8_modulus.
(** [(uint64_t) z]; [size_t] and [unsigned long long] are the same 64 bits. *)
Definition to_uint64 (z : Z) : Z := z mod uint64_modulus.
Definition to_size_t (z : Z) : Z := to_uint64 z.

Definition is_uint64 (z : Z) : Prop := 0 <= z < uint64_modulus.

End CInt.
Import CInt.

(** ** The process: what it is started with, its state, what it can be
    observed to do. *)

(** What the platform decides, not the program: the command line, the
    allocator's verdict on a request and the indeterminate bytes of fresh
    memory, and the tick counter at each read. *)
Record platform := Platform {
  argv : list string;
  malloc_succeeds : Z -> bool;
  garbage : nat -> Z;
  ticks : nat -> Z
}.

Inductive pointer := NULL | Ptr (b : nat).

(** Observable events, in the order they happen. A store through a
    [volatile] lvalue is one of them. *)
Inductive event :=
| Ev_malloc (size : Z) (res : pointer)
| Ev_vstore (b : nat) (ofs : Z) (v : Z)
| Ev_clock (t : Z)
| Ev_stdout (text : string).

Record state := State {
  heap : gmap nat (list Z);
  clock_reads : nat;
  stdout : string;
  environ : gmap string string;
  files : gmap string string;
  trace : list event
}.

Definition set_heap (h : gmap nat (list Z)) (s : state) : state :=
  State h (clock_reads s) (stdout s) (environ s) (files s) (trace s).

Definition emit (e : event) (s : state) : state :=
  State (heap s) (clock_reads s) (stdout s) (environ s) (files s) (trace s ++ [e]).

Definition tick (s : state) : state :=
  State (heap s) (S (clock_reads s)) (stdout s) (environ s) (files s) (trace s).

Definition put_stdout (text : string) (s : state) : state :=
  State (heap s) (clock_reads s) (stdout s +:+ text) (environ s) (files s) (trace s).

(** A process starts with an empty heap, nothing written, no event, and
    the environment and file system it is given. *)
Definition initial_state (env fs : gmap string string) : state :=
  State ∅ 0 EmptyString env fs [].

(** The sizes asked of the allocator, and the volatile stores as
    (offset, value), each in the order of the trace. *)
Definition malloc_requests (t : list event) : list Z :=
  omap (fun e => match e with Ev_malloc n _ => Some n | _ => None end) t.

Definition volatile_stores (t : list event) : list (Z * Z) :=
  omap (fun e => match e with Ev_vstore _ i v => Some (i, v) | _ => None end) t.

(** Events that are memory traffic: the allocation and the stores. *)
Definition is_memory_event (e : event) : bool :=
  match e with
  | Ev_malloc _ _ | Ev_vstore _ _ _ => true
  | Ev_clock _ | Ev_stdout _ => false
  end.

(** The same platform, started with another command line. *)
Definition with_argv (a : list string) (P : platform) : platform :=
  Platform a (malloc_succeeds P) (garbage P) (ticks P).

(** ** The monad of C statements: state passing, with undefined behaviour
    and the exhaustion of the loop budget as the two ways not to return. *)
Inductive result (A : Type) :=
| Done (a : A) (s : state)
| Undef (s : state)
| OutOfFuel (s : state).
Arguments Done {A} a s.
Arguments Undef {A} s.
Arguments OutOfFuel {A} s.

(** The state a computation was left in, however it ended. *)
Definition state_of {A} (r : result A) : state :=
  match r with
  | Done _ s | Undef s | OutOfFuel s => s
  end.

Definition M (A : Type) : Type := state -> result A.

Definition ret {A} (a : A) : M A := fun s => Done a s.

Definition bind {A B} (m : M A) (k : A -> M B) : M B :=
  fun s => match m s with
           | Done a s' => k a s'
           | Undef s' => Undef s'
           | OutOfFuel s' => OutOfFuel s'
           end.

Declare Scope c_scope.
Delimit Scope c_scope with C.
Notation "'do' x <- m ;; k" := (bind m (fun x => k))
  (at level 10, x name, m at level 99, k at level 200) : c_scope.
Notation "'exec' m ;; k" := (bind m (fun _ => k))
  (at level 10, m at level 99, k at level 200) : c_scope.
Local Open Scope c_scope.

(** [for (uint64_t i = i0; cond i; i = next i) body i] *)
Fixpoint for_loop (fuel : nat) (cond : Z -> bool) (next : Z -> Z)
    (body : Z -> M unit) (i : Z) : M unit :=
  match fuel with
  | O => fun s => OutOfFuel s
  | S fuel' =>
      if cond i
      then exec body i ;; for_loop fuel' cond next body (next i)
      else ret tt
  end.

(** ** The platform's primitives *)
Section Primitives.
Variable P : platform.

(** The [n] bytes of a fresh block: whatever the memory held. *)
Definition fresh_bytes (n : Z) : list Z :=
  (fun k => to_uint8 (garbage P k)) <$> seq 0 (Z.to_nat n).

(** [malloc(n)]: a new block of [n] bytes, or [NULL]. *)
Definition malloc (n : Z) : M pointer := fun s =>
  let n := to_size_t n in
  if malloc_succeeds P n then
    let b := fresh (dom (heap s)) in
    Done (Ptr b)
      (emit (Ev_malloc n (Ptr b)) (set_heap (<[b := fresh_bytes n]> (heap s)) s))
  else Done NULL (emit (Ev_malloc n NULL) s).

(** [p[i] = v] through a [volatile uint8_t *]: defined only inside a
    live block. *)
Definition store_volatile (p : pointer) (i v : Z) : M unit := fun s =>
  match p with
  | NULL => Undef s
  | Ptr b =>
      match heap s !! b with
      | None => Undef s
      | Some bytes =>
          if bool_decide (0 <= i < Z.of_nat (length bytes)) then
            Done tt (emit (Ev_vstore b i v)
                       (set_heap (<[b := <[Z.to_nat i := v]> bytes]> (heap s)) s))
          else Undef s
      end
  end.

(** [mach_absolute_time()]: the current value of the tick counter. *)
Definition mach_absolute_time : M Z := fun s =>
  let t := to_uint64 (ticks P (clock_reads s)) in
  Done t (emit (Ev_clock t) (tick s)).

End Primitives.

(** The state [j] iterations of a fill loop lead to, when started at index
    [i] on the block [b] holding [bytes]: the bytes from [i] on are the low
    8 bits of their index, and each store is on the trace, in order. *)
Definition fill_stores (b : nat) (i j : Z) : list event :=
  (fun x => Ev_vstore b x (to_uint8 x)) <$> seqZ i j.

Definition after_stores (b : nat) (i j : Z) (bytes : list Z) (s : state) : state :=
  State
    (<[b := take (Z.to_nat i) bytes ++ (to_uint8 <$> seqZ i j)
            ++ drop (Z.to_nat (i + j)) bytes]> (heap s))
    (clock_reads s) (stdout s) (environ s) (files s)
    (trace s ++ fill_stores b i j).

(** ** loop.c *)
Module BufferFill.

(** [#define BUFSIZE 1024 * 1024] *)
Definition BUFSIZE : Z := 1024 * 1024.

Definition main (P : platform) (fuel : nat) : M Z :=
  do dest <- malloc P BUFSIZE ;;
  exec for_loop fuel (fun i => i <? to_uint64 BUFSIZE) (fun i => to_uint64 (i + 1))
         (fun i => store_volatile dest i (to_uint8 i)) 0 ;;
  (* falling off the end of main returns 0 *)
  ret 0.

(** A run of the process: [main] from the initial state. *)
Definition run (P : platform) (env fs : gmap string string) (fuel : nat) : result Z :=
  main P fuel (initial_state env fs).

(** The state after the call of [malloc], when it gave the block, and
    when it gave [NULL]. *)
Definition allocated (P : platform) (env fs : gmap string string) : state :=
  State {[ 0%nat := fresh_bytes P BUFSIZE ]} 0 EmptyString env fs [Ev_malloc BUFSIZE (Ptr 0)].

Definition not_allocated (env fs : gmap string string) : state :=
  State ∅ 0 EmptyString env fs [Ev_malloc BUFSIZE NULL].

End BufferFill.

(** ** Formatted output *)

(** The character of a decimal digit [0..9]. *)
Definition digit_char (d : Z) : ascii := ascii_of_nat (48 + Z.to_nat d).

(** The digit a character stands for, if it is one of ['0'..'9']. *)
Definition digit_of_char (c : ascii) : option Z :=
  let n := Z.of_nat (nat_of_ascii c) in
  if bool_decide (48 <= n <= 57) then Some (n - 48) else None.

(** Modelled from the spec: the C library's conversion of an unsigned value
    to text, absent from the sources; the spec has it as the base-10 decimal
    rendering of the value. Digits are produced from the least significant
    one, each put in front of those already there, until the quotient is 0;
    [fuel] bounds the number of further digits. *)
Fixpoint utoa_aux (fuel : nat) (n : Z) (acc : string) : string :=
  let acc' := String (digit_char (n mod 10)) acc in
  match fuel with
  | O => acc'
  | S fuel' => if n / 10 =? 0 then acc' else utoa_aux fuel' (n / 10) acc'
  end.

(** A 64-bit value has at most 20 digits. *)
Definition utoa (n : Z) : string := utoa_aux 19 n EmptyString.

(** Modelled from the spec: the C library's [printf], absent from the
    sources, restricted to what the program uses: ordinary characters are
    copied, [%llu] takes the next argument as an [unsigned long long] and
    writes it in decimal, [%%] writes a percent sign. [None] when the format
    asks for anything else or for an argument that is not there. *)
Fixpoint format (fmt : string) (args : list Z) : option string :=
  match fmt with
  | EmptyString => Some EmptyString
  | String c rest =>
      if Ascii.eqb c "%" then
        match rest with
        | String "l" (String "l" (String "u" rest')) =>
            match args with
            | a :: args' => (fun t => utoa (to_uint64 a) +:+ t) <$> format rest' args'
            | [] => None
            end
        | String "%" rest' => String "%" <$> format rest' args
        | _ => None
        end
      else String c <$> format rest args
  end.

(** [printf(fmt, args...)]: the text goes to standard output; the value is
    the number of characters written. *)
Definition printf (fmt : string) (args : list Z) : M Z := fun s =>
  match format fmt args with
  | Some text =>
      Done (Z.of_nat (String.length text)) (emit (Ev_stdout text) (put_stdout text s))
  | None => Undef s
  end.

(** The value a string of decimal digits denotes, read from the left with
    [a] the value of the digits already read. *)
Fixpoint read_digits (s : string) (a : Z) : option Z :=
  match s with
  | EmptyString => Some a
  | String c rest =>
      match digit_of_char c with
      | Some d => read_digits rest (a * 10 + d)
      | None => None
      end
  end.

(** [s] is the base-10 rendering of [v]: digits only and at least one,
    denoting [v], with no leading zero unless it is ["0"] itself. *)
Definition decimal_rendering (s : string) (v : Z) : Prop :=
  s <> EmptyString /\ read_digits s 0 = Some v /\
  (s = "0" \/ forall c rest, s = String c rest -> c <> "0"%char).

(** The newline character, the text [\n] of a C string literal, and how
    many newlines a text has. *)
Definition LF : ascii := "010"%char.
Definition newline : string := String LF EmptyString.

Fixpoint newlines (s : string) : nat :=
  match s with
  | EmptyString => O
  | String c rest => ((if Ascii.eqb c LF then 1 else 0) + newlines rest)%nat
  end.

(** ** mach_absolute_time.c *)
Module TimeReader.

Definition main (P : platform) : M Z :=
  do time <- mach_absolute_time P ;;
  exec printf ("Time is %llu" +:+ newline) [time] ;;
  ret 0.

Definition run (P : platform) (env fs : gmap string string) : result Z :=
  main P (initial_state env fs).

End TimeReader.

(** ** Sample platforms and a small instance of the fill loop, for
    running the definitions *)
Module Samples.

Definition P0 : platform :=
  Platform [] (fun _ => true) (fun k => 1000 + Z.of_nat k) (fun _ => 0).
Definition P1 : platform :=
  Platform ["loop"; "-v"] (fun n => n <? 2 ^ 30) (fun _ => 255) (fun k => 77 + Z.of_nat k).
Definition Pfail : platform :=
  Platform [] (fun _ => false) (fun _ => 0) (fun _ => 0).
(** A platform whose tick counter reads [t]. *)
Definition Pt (t : Z) : platform :=
  Platform [] (fun _ => true) (fun _ => 0) (fun _ => t).

(** The shape of [BufferFill.main] on [n] bytes, storing [300 + i]. *)
Definition small (P : platform) (n : Z) (fuel : nat) : M Z :=
  do dest <- malloc P n ;;
  exec for_loop fuel (fun i => i <? n) (fun i => to_uint64 (i + 1))
         (fun i => store_volatile dest i (to_uint8 (300 + i))) 0 ;;
  ret 0.

End Samples.

(** ** The definitions at work on small inputs *)
Module Tests.
Import Samples.

Example small_3 :
  small P0 3 4 (initial_state ∅ ∅) =
  Done 0 (State {[ 0%nat := [44; 45; 46] ]} 0 EmptyString ∅ ∅
            [Ev_malloc 3 (Ptr 0); Ev_vstore 0 0 44; Ev_vstore 0 1 45; Ev_vstore 0 2 46]).
Proof. vm_compute. reflexivity. Qed.

Example small_3_short_of_fuel :
  small P0 3 3 (initial_state ∅ ∅) =
  OutOfFuel (State {[ 0%nat := [44; 45; 46] ]} 0 EmptyString ∅ ∅
               [Ev_malloc 3 (Ptr 0); Ev_vstore 0 0 44; Ev_vstore 0 1 45; Ev_vstore 0 2 46]).
Proof. vm_compute. reflexivity. Qed.

Example small_3_stopped :
  small P0 3 2 (initial_state ∅ ∅) =
  OutOfFuel (State {[ 0%nat := [44; 45; 234] ]} 0 EmptyString ∅ ∅
               [Ev_malloc 3 (Ptr 0); Ev_vstore 0 0 44; Ev_vstore 0 1 45]).
Proof. vm_compute. reflexivity. Qed.

Example small_3_null :
  small Pfail 3 4 (initial_state ∅ ∅) =
  Undef (State ∅ 0 EmptyString ∅ ∅ [Ev_malloc 3 NULL]).
Proof. reflexivity. Qed.

Example fresh_bytes_3 : fresh_bytes P0 3 = [232; 233; 234].
Proof. reflexivity. Qed.

Example store_out_of_bounds :
  store_volatile (Ptr 0) 3 7 (State {[ 0%nat := [1; 2; 3] ]} 0 EmptyString ∅ ∅ []) =
  Undef (State {[ 0%nat := [1; 2; 3] ]} 0 EmptyString ∅ ∅ []).
Proof. reflexivity. Qed.

Example utoa_0 : utoa 0 = "0".
Proof. reflexivity. Qed.

Example utoa_max : utoa 18446744073709551615 = "18446744073709551615".
Proof. reflexivity. Qed.

Example read_0123 : read_digits "0123" 0 = Some 123.
Proof. reflexivity. Qed.

Example format_percent : format "100%% of %llu" [7] = Some "100% of 7".
Proof. reflexivity. Qed.

Example format_missing_argument : format "%llu" [] = None.
Proof. reflexivity. Qed.

Example run_123456789 :
  TimeReader.run (Pt 123456789) ∅ ∅ =
  Done 0 (State ∅ 1 ("Time is 123456789" +:+ newline) ∅ ∅
            [Ev_clock 123456789; Ev_stdout ("Time is 123456789" +:+ newline)]).
Proof. vm_compute. reflexivity. Qed.

Example run_wrapped_counter :
  TimeReader.run (Pt (2 ^ 64 + 5)) ∅ ∅ =
  Done 0 (State ∅ 1 ("Time is 5" +:+ newline) ∅ ∅
            [Ev_clock 5; Ev_stdout ("Time is 5" +:+ newline)]).
Proof. vm_compute. reflexivity. Qed.

End Tests.

Section FillLoop.
Variables (b : nat) (N : Z).
Hypothesis N_range : 0 <= N < uint64_modulus.

Lemma after_stores_0 i bytes s :
  heap s !! b = Some bytes -> after_stores b i 0 bytes s = s.
Proof.
  intros Hb. unfold after_stores. rewrite Z.add_0_r. simpl.
  rewrite take_drop, insert_id by done. rewrite app_nil_r. by destruct s.
Qed.

Lemma after_stores_step i j bytes s :
  0 <= i -> 0 <= j -> i < Z.of_nat (length bytes) ->
  after_stores b (i + 1) j (<[Z.to_nat i := to_uint8 i]> bytes)
    (emit (Ev_vstore b i (to_uint8 i))
       (set_heap (<[b := <[Z.to_nat i := to_uint8 i]> bytes]> (heap s)) s)) =
  after_stores b i (j + 1) bytes s.
Proof.
  intros Hi Hj Hlen. unfold after_stores, fill_stores. simpl.
  rewrite insert_insert_eq.
  rewrite (seqZ_cons i (j + 1)) by lia. rewrite !fmap_cons.
  replace (Z.succ i) with (i + 1) by lia.
  replace (Z.pred (j + 1)) with j by lia.
  replace (Z.to_nat (i + 1)) with (S (Z.to_nat i)) by lia.
  rewrite (take_S_r _ _ (to_uint8 i)).
  2:{ apply list_lookup_insert_eq. lia. }
  rewrite take_insert_ge by lia.
  rewrite drop_insert_lt by lia.
  replace (i + 1 + j) with (i + (j + 1)) by lia.
  by rewrite <- !app_assoc.
Qed.

(** One store of the loop body inside the block. *)
Lemma store_volatile_in_bounds i v bytes s :
  heap s !! b = Some bytes -> 0 <= i < Z.of_nat (length bytes) ->
  store_volatile (Ptr b) i v s =
  Done tt (emit (Ev_vstore b i v)
             (set_heap (<[b := <[Z.to_nat i := v]> bytes]> (heap s)) s)).
Proof.
  intros Hb Hi. unfold store_volatile. rewrite Hb.
  by rewrite bool_decide_eq_true_2.
Qed.

(** The loop from index [i] with [k] iterations to go: it exits after
    them when the budget is larger than [k], and otherwise stops after as
    many iterations as the budget. *)
Lemma for_loop_fill (fuel : nat) : forall (k : nat) i s bytes,
  0 <= i -> i + Z.of_nat k = N ->
  heap s !! b = Some bytes -> N <= Z.of_nat (length bytes) ->
  for_loop fuel (fun i => i <? N) (fun i => to_uint64 (i + 1))
    (fun i => store_volatile (Ptr b) i (to_uint8 i)) i s =
  if (k <? fuel)%nat
  then Done tt (after_stores b i (Z.of_nat k) bytes s)
  else OutOfFuel (after_stores b i (Z.of_nat fuel) bytes s).
Proof.
  induction fuel as [|fuel IH]; intros k i s bytes Hi Hk Hb Hlen.
  - simpl. replace (k <? 0)%nat with false by (symmetry; apply Nat.ltb_ge; lia).
    by rewrite after_stores_0.
  - cbn [for_loop]. cbv beta.
    destruct (Z.ltb_spec i N) as [Hlt|Hge].
    + destruct k as [|k]; [lia|].
      unfold bind at 1. rewrite (store_volatile_in_bounds _ _ bytes) by (done || lia).
      assert (Hnext : to_uint64 (i + 1) = i + 1).
      { unfold to_uint64. apply Z.mod_small. lia. }
      rewrite Hnext.
      rewrite (IH k (i + 1) _ (<[Z.to_nat i := to_uint8 i]> bytes));
        [| lia | lia | apply lookup_insert_eq | rewrite length_insert; lia].
      rewrite !after_stores_step by lia.
      replace (Z.of_nat k + 1) with (Z.of_nat (S k)) by lia.
      replace (Z.of_nat fuel + 1) with (Z.of_nat (S fuel)) by lia.
      change (S k <? S fuel)%nat with (k <? fuel)%nat.
      reflexivity.
    + assert (k = O) by lia. subst k.
      change (0 <? S fuel)%nat with true. unfold ret.
      by rewrite after_stores_0.
Qed.

End FillLoop.

(** ** loop.c: what a run does *)
Section BufferFillRun.
Import BufferFill.
Variables (P : platform) (env fs : gmap string string).

Lemma BUFSIZE_value : BUFSIZE = 1048576.
Proof. reflexivity. Qed.

Lemma BUFSIZE_fits_int : 0 <= BUFSIZE <= INT_MAX.
Proof. unfold BUFSIZE, INT_MAX. lia. Qed.

Lemma BUFSIZE_as_size_t : to_size_t BUFSIZE = BUFSIZE.
Proof. reflexivity. Qed.

Lemma length_fresh_bytes n : length (fresh_bytes P n) = Z.to_nat n.
Proof. unfold fresh_bytes. by rewrite length_fmap, length_seq. Qed.

Lemma run_allocated fuel :
  malloc_succeeds P BUFSIZE = true ->
  run P env fs fuel =
  if (Z.to_nat BUFSIZE <? fuel)%nat
  then Done 0 (after_stores 0 0 BUFSIZE (fresh_bytes P BUFSIZE) (allocated P env fs))
  else OutOfFuel
         (after_stores 0 0 (Z.of_nat fuel) (fresh_bytes P BUFSIZE) (allocated P env fs)).
Proof.
  intros Hok. unfold run, main, bind, malloc.
  rewrite BUFSIZE_as_size_t, Hok.
  change (to_uint64 BUFSIZE) with BUFSIZE.
  change (fresh (dom (heap (initial_state env fs)))) with 0%nat.
  rewrite (for_loop_fill 0 BUFSIZE ltac:(done) fuel (Z.to_nat BUFSIZE) 0 _
             (fresh_bytes P BUFSIZE)).
  - rewrite Z2Nat.id by done.
    by destruct (Z.to_nat BUFSIZE <? fuel)%nat.
  - done.
  - rewrite Z2Nat.id; done.
  - apply lookup_insert_eq.
  - rewrite length_fresh_bytes, Z2Nat.id; done.
Qed.

Lemma run_null fuel :
  malloc_succeeds P BUFSIZE = false ->
  run P env fs fuel =
  match fuel with
  | O => OutOfFuel (not_allocated env fs)
  | S _ => Undef (not_allocated env fs)
  end.
Proof.
  intros Hko. unfold run, main, bind, malloc.
  rewrite BUFSIZE_as_size_t, Hko.
  by destruct fuel.
Qed.

End BufferFillRun.

(** ** Properties of the trace and of the block a fill loop leaves *)
Section FillFacts.
Variable b : nat.

Lemma malloc_requests_fill_stores i j : malloc_requests (fill_stores b i j) = [].
Proof.
  unfold fill_stores, malloc_requests.
  induction (seqZ i j) as [|x l IH]; [done|]. by rewrite fmap_cons.
Qed.

Lemma volatile_stores_fill_stores i j :
  volatile_stores (fill_stores b i j) = (fun x => (x, to_uint8 x)) <$> seqZ i j.
Proof.
  unfold fill_stores, volatile_stores.
  induction (seqZ i j) as [|x l IH]; [done|].
  rewrite !fmap_cons. simpl. f_equal. exact IH.
Qed.

Lemma volatile_stores_malloc n p (t : list event) :
  volatile_stores (Ev_malloc n p :: t) = volatile_stores t.
Proof. reflexivity. Qed.

Lemma malloc_requests_malloc n p (t : list event) :
  malloc_requests (Ev_malloc n p :: t) = n :: malloc_requests t.
Proof. reflexivity. Qed.

Lemma length_fill_stores i j : length (fill_stores b i j) = Z.to_nat j.
Proof. unfold fill_stores. by rewrite length_fmap, length_seqZ. Qed.

Lemma fill_stores_memory i j :
  Forall (fun e => is_memory_event e = true) (fill_stores b i j).
Proof.
  unfold fill_stores. apply Forall_fmap, Forall_forall. by intros x _.
Qed.

Lemma elem_of_fill_stores b' i j x v :
  Ev_vstore b' x v ∈ fill_stores b i j ->
  b' = b /\ i <= x < i + j /\ v = to_uint8 x.
Proof.
  unfold fill_stores. intros [y [Heq Hin]]%list_elem_of_fmap.
  apply list_elem_of_lookup in Hin as [n Hn].
  apply lookup_seqZ in Hn as [-> Hlt].
  injection Heq as -> -> ->. repeat split; lia.
Qed.

(** The block once all of it has been gone through. *)
Lemma filled_whole (bytes : list Z) (n : Z) :
  0 <= n -> Z.of_nat (length bytes) = n ->
  take (Z.to_nat 0) bytes ++ (to_uint8 <$> seqZ 0 n) ++ drop (Z.to_nat (0 + n)) bytes
  = to_uint8 <$> seqZ 0 n.
Proof.
  intros Hn Hlen. change (Z.to_nat 0) with O. rewrite take_0. simpl.
  rewrite drop_ge by lia. by rewrite app_nil_r.
Qed.

Lemma lookup_filled (n i : Z) :
  0 <= i < n -> (to_uint8 <$> seqZ 0 n) !! Z.to_nat i = Some (to_uint8 i).
Proof.
  intros Hi. rewrite list_lookup_fmap, lookup_seqZ_lt by lia.
  simpl. f_equal. f_equal. lia.
Qed.

End FillFacts.

Create Rewrite HintDb trace.
#[global] Hint Rewrite volatile_stores_malloc malloc_requests_malloc
  malloc_requests_fill_stores volatile_stores_fill_stores : trace.

(** ** loop.c: the claims *)
Section BufferFillClaims.
Import BufferFill.
Local Opaque seqZ Z.to_nat.

(** The final state of a successful run, field by field. *)
Lemma run_done P env fs fuel :
  malloc_succeeds P BUFSIZE = true -> BUFSIZE < Z.of_nat fuel ->
  run P env fs fuel =
  Done 0 (State {[ 0%nat := to_uint8 <$> seqZ 0 BUFSIZE ]} 0 EmptyString env fs
            (Ev_malloc BUFSIZE (Ptr 0) :: fill_stores 0 0 BUFSIZE)).
Proof.
  intros Hok Hfuel. rewrite run_allocated by done.
  replace (Z.to_nat BUFSIZE <? fuel)%nat with true
    by (symmetry; apply Nat.ltb_lt; pose proof BUFSIZE_fits_int; lia).
  unfold after_stores, allocated. cbn [heap clock_reads stdout environ files trace].
  rewrite insert_singleton_eq.
  rewrite filled_whole; [done | done |].
  rewrite length_fresh_bytes. by rewrite Z2Nat.id.
Qed.

(** C1 (BufferFill completeness): when the allocation succeeds the run
    completes, and then, for every index [i] in [0, 1048576), the byte at
    offset [i] of the block [malloc] returned is [i mod 256]. *)
Theorem BufferFill_completeness P env fs fuel i :
  malloc_succeeds P 1048576 = true -> 1048576 < Z.of_nat fuel ->
  0 <= i < 1048576 ->
  exists s b bytes,
    run P env fs fuel = Done 0 s /\
    Ev_malloc 1048576 (Ptr b) ∈ trace s /\
    heap s !! b = Some bytes /\
    Z.of_nat (length bytes) = 1048576 /\
    bytes !! Z.to_nat i = Some (i mod 256).
Proof.
  change 1048576 with BUFSIZE. intros Hok Hfuel Hi.
  eexists _, 0%nat, _. split; [by apply run_done|].
  cbn [heap trace]. split; [apply list_elem_of_here|].
  split; [apply lookup_insert_eq|].
  split.
  - rewrite length_fmap, length_seqZ. by rewrite Z2Nat.id.
  - by apply lookup_filled.
Qed.

(** C3 (BufferFill size invariant): whatever the platform, the command
    line, the environment, the file system and the loop budget, and
    however the run ends, exactly one request was made of the allocator,
    for 1,048,576 bytes. *)
Theorem BufferFill_allocation_size P env fs fuel :
  malloc_requests (trace (state_of (run P env fs fuel))) = [1048576].
Proof.
  destruct (malloc_succeeds P BUFSIZE) eqn:Hm.
  - rewrite run_allocated by done.
    destruct (Z.to_nat BUFSIZE <? fuel)%nat;
      cbn [state_of after_stores trace allocated app];
      by autorewrite with trace.
  - rewrite run_null by done. by destruct fuel.
Qed.


Lemma BufferFill_completeness_witness :
  exists s b bytes,
    run Samples.P0 ∅ ∅ (Z.to_nat 1048577) = Done 0 s /\
    Ev_malloc 1048576 (Ptr b) ∈ trace s /\
    heap s !! b = Some bytes /\
    Z.of_nat (length bytes) = 1048576 /\
    bytes !! Z.to_nat 1000 = Some (1000 mod 256).
Proof.
  apply (BufferFill_completeness Samples.P0 ∅ ∅ (Z.to_nat 1048577) 1000);
    [reflexivity | lia | lia].
Defined.


End BufferFillClaims.

(** ** Decimal text *)
Section Decimal.

Lemma digit_cases d : 0 <= d < 10 ->
  d = 0 \/ d = 1 \/ d = 2 \/ d = 3 \/ d = 4 \/ d = 5 \/ d = 6 \/ d = 7 \/ d = 8 \/ d = 9.
Proof. lia. Qed.

Lemma digit_of_digit_char d : 0 <= d < 10 -> digit_of_char (digit_char d) = Some d.
Proof.
  intros Hd. destruct (digit_cases d Hd) as [->|[->|[->|[->|[->|[->|[->|[->|[->| ->]]]]]]]]];
    reflexivity.
Qed.

Lemma digit_char_not_LF d : 0 <= d < 10 -> Ascii.eqb (digit_char d) LF = false.
Proof.
  intros Hd. destruct (digit_cases d Hd) as [->|[->|[->|[->|[->|[->|[->|[->|[->| ->]]]]]]]]];
    reflexivity.
Qed.

Lemma digit_char_not_zero d : 1 <= d < 10 -> digit_char d <> "0"%char.
Proof.
  intros Hd.
  assert (H : 0 <= d < 10) by lia.
  destruct (digit_cases d H) as [->|[->|[->|[->|[->|[->|[->|[->|[->| ->]]]]]]]]];
    (lia || discriminate).
Qed.

(** Reading back what [utoa_aux] wrote in front of [acc] gives the value
    written, when the budget covers its digits. *)
Lemma read_digits_utoa_aux (fuel : nat) : forall n acc,
  0 <= n < 10 ^ (Z.of_nat fuel + 1) ->
  read_digits (utoa_aux fuel n acc) 0 = read_digits acc n.
Proof.
  induction fuel as [|fuel IH]; intros n acc Hn.
  - change (10 ^ (Z.of_nat 0 + 1)) with 10 in Hn.
    cbn [utoa_aux read_digits].
    rewrite Z.mod_small by lia. rewrite digit_of_digit_char by lia.
    f_equal.
  - cbn [utoa_aux].
    pose proof (Z.mod_pos_bound n 10 ltac:(lia)) as Hm.
    pose proof (Z.div_mod n 10 ltac:(lia)) as Hdm.
    destruct (Z.eqb_spec (n / 10) 0) as [Hq|Hq].
    + cbn [read_digits]. rewrite digit_of_digit_char by lia.
      f_equal. lia.
    + rewrite IH.
      * cbn [read_digits]. rewrite digit_of_digit_char by lia.
        f_equal. lia.
      * split; [apply Z.div_pos; lia|].
        apply Z.div_lt_upper_bound; [lia|].
        replace (Z.of_nat (S fuel) + 1) with (Z.succ (Z.of_nat fuel + 1)) in Hn by lia.
        rewrite Z.pow_succ_r in Hn by lia. lia.
Qed.

Lemma utoa_aux_leading (fuel : nat) : forall n acc,
  0 < n < 10 ^ (Z.of_nat fuel + 1) ->
  exists c rest, utoa_aux fuel n acc = String c rest /\ c <> "0"%char.
Proof.
  induction fuel as [|fuel IH]; intros n acc Hn.
  - change (10 ^ (Z.of_nat 0 + 1)) with 10 in Hn.
    cbn [utoa_aux]. eexists _, _. split; [reflexivity|].
    rewrite Z.mod_small by lia. apply digit_char_not_zero. lia.
  - cbn [utoa_aux].
    pose proof (Z.mod_pos_bound n 10 ltac:(lia)) as Hm.
    pose proof (Z.div_mod n 10 ltac:(lia)) as Hdm.
    destruct (Z.eqb_spec (n / 10) 0) as [Hq|Hq].
    + eexists _, _. split; [reflexivity|].
      apply digit_char_not_zero. lia.
    + apply IH.
      assert (0 <= n / 10) by (apply Z.div_pos; lia).
      split; [lia|].
      apply Z.div_lt_upper_bound; [lia|].
      replace (Z.of_nat (S fuel) + 1) with (Z.succ (Z.of_nat fuel + 1)) in Hn by lia.
      rewrite Z.pow_succ_r in Hn by lia. lia.
Qed.

Lemma utoa_aux_nonempty fuel n acc : utoa_aux fuel n acc <> EmptyString.
Proof.
  revert n acc. induction fuel as [|fuel IH]; intros n acc; cbn [utoa_aux]; [done|].
  destruct (n / 10 =? 0); [done | apply IH].
Qed.

Lemma newlines_utoa_aux (fuel : nat) : forall n acc,
  newlines (utoa_aux fuel n acc) = newlines acc.
Proof.
  induction fuel as [|fuel IH]; intros n acc; cbn [utoa_aux].
  - cbn [newlines]. rewrite digit_char_not_LF; [done|].
    apply Z.mod_pos_bound. lia.
  - destruct (n / 10 =? 0).
    + cbn [newlines]. rewrite digit_char_not_LF; [done|].
      apply Z.mod_pos_bound. lia.
    + rewrite IH. cbn [newlines]. rewrite digit_char_not_LF; [done|].
      apply Z.mod_pos_bound. lia.
Qed.

Lemma newlines_app s t : newlines (s +:+ t) = (newlines s + newlines t)%nat.
Proof.
  induction s as [|c s IH]; [done|].
  change (String c s +:+ t) with (String c (s +:+ t)).
  cbn [newlines]. rewrite IH. lia.
Qed.

(** [utoa] writes the base-10 rendering of a 64-bit value. *)
Lemma utoa_decimal v : is_uint64 v -> decimal_rendering (utoa v) v.
Proof.
  intros Hv. unfold is_uint64, uint64_modulus in Hv.
  assert (Hbound : 2 ^ 64 < 10 ^ (Z.of_nat 19 + 1)) by (vm_compute; reflexivity).
  unfold decimal_rendering, utoa. split; [apply utoa_aux_nonempty|]. split.
  - rewrite read_digits_utoa_aux by lia. reflexivity.
  - destruct (Z.eq_dec v 0) as [->|Hnz]; [by left|].
    right. intros c rest Heq.
    destruct (utoa_aux_leading 19 v EmptyString) as (c' & rest' & Heq' & Hc'); [lia|].
    congruence.
Qed.

Lemma newlines_utoa v : newlines (utoa v) = O.
Proof. unfold utoa. by rewrite newlines_utoa_aux. Qed.

End Decimal.

(** ** mach_absolute_time.c: what a run does, and the claims *)
Section TimeReaderClaims.
Import TimeReader.
Local Opaque utoa.

(** The line the program writes for the counter value [v]. *)
Lemma format_time t :
  format ("Time is %llu" +:+ newline) [t] =
  Some ("Time is " +:+ utoa (to_uint64 t) +:+ newline).
Proof. reflexivity. Qed.

Lemma to_uint64_idem z : to_uint64 (to_uint64 z) = to_uint64 z.
Proof. unfold to_uint64. apply Z.mod_mod. unfold uint64_modulus. lia. Qed.

Lemma to_uint64_range z : is_uint64 (to_uint64 z).
Proof. apply Z.mod_pos_bound. unfold uint64_modulus. lia. Qed.

Lemma run_time P env fs :
  run P env fs =
  let v := to_uint64 (ticks P 0%nat) in
  let line := "Time is " +:+ utoa v +:+ newline in
  Done 0 (State ∅ 1 line env fs [Ev_clock v; Ev_stdout line]).
Proof.
  unfold run, main, bind, mach_absolute_time, printf.
  rewrite format_time, to_uint64_idem. reflexivity.
Qed.

(** C2 (TimeReader output format): for every 64-bit unsigned value [v]
    the timer read returns, the run ends with exit status 0 and has
    written to standard output exactly the text ["Time is "], the base-10
    rendering of [v], and a newline: one line, written after the single
    read of the timer. *)
Theorem TimeReader_output P env fs v :
  ticks P 0%nat = v -> 0 <= v < 2 ^ 64 ->
  exists s,
    run P env fs = Done 0 s /\
    stdout s = "Time is " +:+ utoa v +:+ newline /\
    decimal_rendering (utoa v) v /\
    newlines (stdout s) = 1%nat /\
    trace s = [Ev_clock v; Ev_stdout (stdout s)].
Proof.
  intros Ht Hv. rewrite run_time, Ht.
  assert (Hid : to_uint64 v = v) by (apply Z.mod_small; exact Hv).
  cbv zeta. rewrite Hid. eexists. split; [reflexivity|].
  cbn [stdout trace]. split; [reflexivity|].
  split; [by apply utoa_decimal|].
  split; [|reflexivity].
  rewrite !newlines_app, newlines_utoa. reflexivity.
Qed.

Lemma TimeReader_output_witness :
  (exists s, run (Samples.Pt 123456789) ∅ ∅ = Done 0 s /\
             stdout s = "Time is 123456789" +:+ newline) /\
  (exists s, run (Samples.Pt 0) ∅ ∅ = Done 0 s /\
             stdout s = "Time is 0" +:+ newline).
Proof.
  split.
  - destruct (TimeReader_output (Samples.Pt 123456789) ∅ ∅ 123456789)
      as (s & Hrun & Hout & _); [reflexivity | lia |].
    exists s. split; [exact Hrun | exact Hout].
  - destruct (TimeReader_output (Samples.Pt 0) ∅ ∅ 0)
      as (s & Hrun & Hout & _); [reflexivity | lia |].
    exists s. split; [exact Hrun | exact Hout].
Defined.

End TimeReaderClaims.

(** ** loop.c: safety, frame and termination; both programs: independence *)
Section SafetyAndFrame.
Import BufferFill.
Local Opaque seqZ Z.to_nat.

Lemma length_partly_filled (bytes : list Z) (n j : Z) :
  0 <= j <= n -> Z.of_nat (length bytes) = n ->
  Z.of_nat (length (take (Z.to_nat 0) bytes ++ (to_uint8 <$> seqZ 0 j)
                      ++ drop (Z.to_nat (0 + j)) bytes)) = n.
Proof.
  intros Hj Hlen.
  rewrite !length_app, length_take, length_fmap, length_seqZ, length_drop.
  lia.
Qed.

(** A store found on the trace of a run is one of the loop's, the event of
    the allocation being none. *)
Ltac store_on_trace H :=
  apply elem_of_app in H as [H|H];
  [ apply list_elem_of_singleton in H; discriminate
  | apply elem_of_fill_stores in H as (-> & H & _) ].

(** C6 (BufferFill allocation-failure safety): [main] does not test the
    pointer [malloc] returns. When the allocation fails the run reaches
    undefined behaviour at once, with the failed request as its only
    event; and a run is undefined only then: with the block allocated, no
    store is. *)
Theorem BufferFill_allocation_failure P env fs fuel :
  (0 < fuel)%nat ->
  (malloc_succeeds P 1048576 = false ->
     run P env fs fuel = Undef (State ∅ 0 EmptyString env fs [Ev_malloc 1048576 NULL])) /\
  ((exists s, run P env fs fuel = Undef s) <-> malloc_succeeds P 1048576 = false).
Proof.
  change 1048576 with BUFSIZE. intros Hfuel.
  destruct fuel as [|fuel]; [lia|].
  split.
  - intros Hko. by rewrite run_null.
  - split.
    + intros [s Hs]. destruct (malloc_succeeds P BUFSIZE) eqn:Hm; [|done].
      rewrite run_allocated in Hs by done.
      by destruct (Z.to_nat BUFSIZE <? S fuel)%nat.
    + intros Hko. rewrite run_null by done. by eexists.
Qed.

Lemma BufferFill_allocation_failure_witness :
  run Samples.Pfail ∅ ∅ 1 = Undef (State ∅ 0 EmptyString ∅ ∅ [Ev_malloc 1048576 NULL]).
Proof.
  apply (BufferFill_allocation_failure Samples.Pfail ∅ ∅ 1); [lia | reflexivity].
Defined.

(** C10 (in-bounds stores): when the allocation of 1,048,576 bytes
    succeeds, the run never reaches undefined behaviour, and every store
    it performs, up to wherever it is stopped, is at an offset [i] with
    [0 <= i < 1048576] of the block of 1,048,576 bytes that [malloc]
    returned. *)
Theorem BufferFill_in_bounds P env fs fuel :
  malloc_succeeds P 1048576 = true ->
  (forall s, run P env fs fuel <> Undef s) /\
  (forall b i v,
     Ev_vstore b i v ∈ trace (state_of (run P env fs fuel)) ->
     0 <= i < 1048576 /\
     Ev_malloc 1048576 (Ptr b) ∈ trace (state_of (run P env fs fuel)) /\
     exists bytes,
       heap (state_of (run P env fs fuel)) !! b = Some bytes /\
       Z.of_nat (length bytes) = 1048576).
Proof.
  change 1048576 with BUFSIZE. intros Hok.
  pose proof BUFSIZE_fits_int as HB.
  assert (Hlen : Z.of_nat (length (fresh_bytes P BUFSIZE)) = BUFSIZE).
  { rewrite length_fresh_bytes. lia. }
  rewrite run_allocated by done.
  destruct (Nat.ltb_spec (Z.to_nat BUFSIZE) fuel) as [Hlt|Hge];
    (split; [done|]); intros b i v Hin;
    cbn [state_of after_stores trace heap allocated] in *;
    store_on_trace Hin;
    (split; [lia|]); (split; [apply elem_of_app; left; apply list_elem_of_here|]);
    eexists; (split; [apply lookup_insert_eq|]);
    apply length_partly_filled; (lia || done).
Qed.

Lemma BufferFill_in_bounds_witness :
  (forall s, run Samples.P0 ∅ ∅ (Z.to_nat 1048577) <> Undef s) /\
  (forall b i v,
     Ev_vstore b i v ∈ trace (state_of (run Samples.P0 ∅ ∅ (Z.to_nat 1048577))) ->
     0 <= i < 1048576 /\
     Ev_malloc 1048576 (Ptr b) ∈ trace (state_of (run Samples.P0 ∅ ∅ (Z.to_nat 1048577))) /\
     exists bytes,
       heap (state_of (run Samples.P0 ∅ ∅ (Z.to_nat 1048577))) !! b = Some bytes /\
       Z.of_nat (length bytes) = 1048576).
Proof.
  apply (BufferFill_in_bounds Samples.P0 ∅ ∅ (Z.to_nat 1048577)); reflexivity.
Defined.

(** C9 (BufferFill frame): on normal completion the exit status is 0,
    nothing has been written to standard output, the environment and the
    file system are as they were, the timer has not been read, and every
    event is memory traffic (the allocation and the stores); the command
    line, the environment and the file system have no influence on the
    buffer or on the events. *)
Theorem BufferFill_frame P env fs fuel :
  malloc_succeeds P 1048576 = true -> 1048576 < Z.of_nat fuel ->
  exists s,
    run P env fs fuel = Done 0 s /\
    stdout s = EmptyString /\ environ s = env /\ files s = fs /\ clock_reads s = O /\
    Forall (fun e => is_memory_event e = true) (trace s) /\
    (forall argv' env' fs', exists s',
       run (with_argv argv' P) env' fs' fuel = Done 0 s' /\
       heap s' = heap s /\ trace s' = trace s /\ stdout s' = EmptyString).
Proof.
  change 1048576 with BUFSIZE. intros Hok Hfuel.
  eexists. split; [by apply run_done|].
  cbn [stdout environ files clock_reads trace heap].
  repeat (split; [reflexivity|]).
  split.
  - apply Forall_cons. split; [reflexivity | apply fill_stores_memory].
  - intros argv' env' fs'. eexists.
    split; [by apply run_done|]. done.
Qed.

Lemma BufferFill_frame_witness :
  exists s,
    run Samples.P0 ∅ ∅ (Z.to_nat 1048577) = Done 0 s /\
    stdout s = EmptyString /\ environ s = ∅ /\ files s = ∅ /\ clock_reads s = O /\
    Forall (fun e => is_memory_event e = true) (trace s) /\
    (forall argv' env' fs', exists s',
       run (with_argv argv' Samples.P0) env' fs' (Z.to_nat 1048577) = Done 0 s' /\
       heap s' = heap s /\ trace s' = trace s /\ stdout s' = EmptyString).
Proof.
  apply (BufferFill_frame Samples.P0 ∅ ∅ (Z.to_nat 1048577)); [reflexivity | lia].
Defined.

End SafetyAndFrame.

(** ** Both programs: termination and independence of runs *)
Section Runs.
Local Opaque seqZ Z.to_nat utoa.

(** C8 (run-to-completion termination): [TimeReader] ends on every run;
    with the block allocated, [BufferFill]'s loop exits after exactly
    1,048,576 iterations, each with its one store: a budget of more
    condition tests than that lets the run end with status 0, and a
    budget of [fuel] tests up to that is used up after [fuel]
    iterations. *)
Theorem run_to_completion P env fs :
  malloc_succeeds P 1048576 = true ->
  (forall P', exists s, TimeReader.run P' env fs = Done 0 s) /\
  (forall fuel, 1048576 < Z.of_nat fuel ->
     exists s, BufferFill.run P env fs fuel = Done 0 s /\
               Z.of_nat (length (volatile_stores (trace s))) = 1048576) /\
  (forall fuel, Z.of_nat fuel <= 1048576 ->
     exists s, BufferFill.run P env fs fuel = OutOfFuel s /\
               length (volatile_stores (trace s)) = fuel).
Proof.
  change 1048576 with BufferFill.BUFSIZE. intros Hok.
  pose proof BUFSIZE_fits_int as HB.
  split; [|split].
  - intros P'. rewrite run_time. by eexists.
  - intros fuel Hfuel. eexists. split; [by apply run_done|].
    cbn [trace]. autorewrite with trace.
    rewrite length_fmap, length_seqZ. lia.
  - intros fuel Hfuel. rewrite run_allocated by done.
    replace (Z.to_nat BufferFill.BUFSIZE <? fuel)%nat with false
      by (symmetry; apply Nat.ltb_ge; lia).
    eexists. split; [reflexivity|].
    cbn [after_stores trace BufferFill.allocated app].
    autorewrite with trace. rewrite length_fmap, length_seqZ. lia.
Qed.

Lemma run_to_completion_witness :
  (forall P', exists s, TimeReader.run P' ∅ ∅ = Done 0 s) /\
  (forall fuel, 1048576 < Z.of_nat fuel ->
     exists s, BufferFill.run Samples.P0 ∅ ∅ fuel = Done 0 s /\
               Z.of_nat (length (volatile_stores (trace s))) = 1048576) /\
  (forall fuel, Z.of_nat fuel <= 1048576 ->
     exists s, BufferFill.run Samples.P0 ∅ ∅ fuel = OutOfFuel s /\
               length (volatile_stores (trace s)) = fuel).
Proof. apply (run_to_completion Samples.P0 ∅ ∅). reflexivity. Defined.

(** Whatever the platform and the budget, and however the run ends,
    [BufferFill] leaves the environment and the file system as they were. *)
Lemma BufferFill_persistent_state P env fs fuel :
  environ (state_of (BufferFill.run P env fs fuel)) = env /\
  files (state_of (BufferFill.run P env fs fuel)) = fs.
Proof.
  destruct (malloc_succeeds P BufferFill.BUFSIZE) eqn:Hm.
  - rewrite run_allocated by done.
    by destruct (Z.to_nat BufferFill.BUFSIZE <? fuel)%nat.
  - rewrite run_null by done. by destruct fuel.
Qed.

(** C7 (run independence): a run of either program, on any platform and
    however it ends, leaves the environment and the file system as it found
    them, so a second run starts from the same conditions as the first; what
    [TimeReader] writes is a function of the one counter value it read, the
    same text for the same value; and two completed runs of [BufferFill],
    whatever the fresh memory held, end with the same buffer contents. Only
    this last part needs the allocations to succeed. *)
Theorem run_independence P1 P2 env fs :
  (forall fuel,
     environ (state_of (BufferFill.run P1 env fs fuel)) = env /\
     files (state_of (BufferFill.run P1 env fs fuel)) = fs) /\
  (exists t1 t2,
     TimeReader.run P1 env fs = Done 0 t1 /\
     environ t1 = env /\ files t1 = fs /\
     TimeReader.run P2 (environ t1) (files t1) = Done 0 t2 /\
     environ t2 = env /\ files t2 = fs /\
     (to_uint64 (ticks P1 0%nat) = to_uint64 (ticks P2 0%nat) -> stdout t2 = stdout t1)) /\
  (exists line : Z -> string, forall P env' fs',
     stdout (state_of (TimeReader.run P env' fs')) = line (to_uint64 (ticks P 0%nat))) /\
  (forall fuel1 fuel2,
     malloc_succeeds P1 1048576 = true -> malloc_succeeds P2 1048576 = true ->
     1048576 < Z.of_nat fuel1 -> 1048576 < Z.of_nat fuel2 ->
     exists s1 s2,
       BufferFill.run P1 env fs fuel1 = Done 0 s1 /\
       environ s1 = env /\ files s1 = fs /\
       BufferFill.run P2 (environ s1) (files s1) fuel2 = Done 0 s2 /\
       environ s2 = env /\ files s2 = fs /\
       heap s2 = heap s1).
Proof.
  change 1048576 with BufferFill.BUFSIZE.
  split; [|split; [|split]].
  - intros fuel. apply BufferFill_persistent_state.
  - eexists _, _. split; [apply run_time|].
    cbn [environ files]. do 2 (split; [reflexivity|]).
    split; [apply run_time|].
    cbn [environ files stdout]. do 2 (split; [reflexivity|]).
    by intros ->.
  - exists (fun v => "Time is " +:+ utoa v +:+ newline).
    intros P env' fs'. by rewrite run_time.
  - intros fuel1 fuel2 Hok1 Hok2 Hfuel1 Hfuel2.
    eexists _, _. split; [by apply run_done|].
    cbn [environ files]. do 2 (split; [reflexivity|]).
    split; [by apply run_done|]. done.
Qed.

(** The theorem at work: [TimeReader] on a platform whose allocator
    refuses everything, and [BufferFill] on two platforms that differ in
    what fresh memory holds. *)
Lemma run_independence_witness :
  (exists t1 t2,
     TimeReader.run Samples.Pfail ∅ ∅ = Done 0 t1 /\
     environ t1 = ∅ /\ files t1 = ∅ /\
     TimeReader.run Samples.Pfail (environ t1) (files t1) = Done 0 t2 /\
     environ t2 = ∅ /\ files t2 = ∅ /\
     (to_uint64 (ticks Samples.Pfail 0%nat) = to_uint64 (ticks Samples.Pfail 0%nat) ->
      stdout t2 = stdout t1)) /\
  (exists s1 s2,
     BufferFill.run Samples.P0 ∅ ∅ (Z.to_nat 1048577) = Done 0 s1 /\
     environ s1 = ∅ /\ files s1 = ∅ /\
     BufferFill.run Samples.P1 (environ s1) (files s1) (Z.to_nat 2000000) = Done 0 s2 /\
     environ s2 = ∅ /\ files s2 = ∅ /\
     heap s2 = heap s1).
Proof.
  split.
  - exact (proj1 (proj2 (run_independence Samples.Pfail Samples.Pfail ∅ ∅))).
  - refine (proj2 (proj2 (proj2 (run_independence Samples.P0 Samples.P1 ∅ ∅)))
              (Z.to_nat 1048577) (Z.to_nat 2000000) _ _ _ _);
      [reflexivity | reflexivity | lia | lia].
Defined.

End Runs.

(** ** loop.c: the block while and after it is filled *)
Section BlockContents.
Variable P : platform.

Lemma lookup_fresh_bytes (n : Z) (k : nat) :
  Z.of_nat k < n -> fresh_bytes P n !! k = Some (to_uint8 (garbage P k)).
Proof.
  intros Hk. unfold fresh_bytes. rewrite list_lookup_fmap.
  replace (seq 0 (Z.to_nat n) !! k) with (Some k); [done|].
  symmetry. apply lookup_seq. split; lia.
Qed.

Lemma lookup_partly_filled_lt (bytes : list Z) (j i : Z) :
  0 <= i < j ->
  (take (Z.to_nat 0) bytes ++ (to_uint8 <$> seqZ 0 j)
     ++ drop (Z.to_nat (0 + j)) bytes) !! Z.to_nat i = Some (to_uint8 i).
Proof.
  intros Hi. change (Z.to_nat 0) with O. rewrite take_0, app_nil_l.
  rewrite lookup_app_l by (rewrite length_fmap, length_seqZ; lia).
  by apply lookup_filled.
Qed.

Lemma lookup_partly_filled_ge (bytes : list Z) (j i : Z) :
  0 <= j <= i ->
  (take (Z.to_nat 0) bytes ++ (to_uint8 <$> seqZ 0 j)
     ++ drop (Z.to_nat (0 + j)) bytes) !! Z.to_nat i = bytes !! Z.to_nat i.
Proof.
  intros Hi. change (Z.to_nat 0) with O. rewrite take_0, app_nil_l.
  rewrite lookup_app_r by (rewrite length_fmap, length_seqZ; lia).
  rewrite length_fmap, length_seqZ, lookup_drop. f_equal. lia.
Qed.

(** The low 8 bits of 256 consecutive indices from a multiple of 256 are
    0, 1, ..., 255. *)
Lemma to_uint8_period (n : Z) :
  to_uint8 <$> seqZ (256 * n) 256 = seqZ 0 256.
Proof.
  apply list_eq. intros k. rewrite list_lookup_fmap.
  destruct (decide (Z.of_nat k < 256)) as [Hk|Hk].
  - rewrite !lookup_seqZ_lt by done. simpl. f_equal.
    unfold to_uint8, uint8_modulus. change (2 ^ 8) with 256.
    rewrite Z.add_comm, Z.mul_comm, Z_mod_plus_full. apply Z.mod_small. lia.
  - rewrite !lookup_seqZ_ge by lia. done.
Qed.

Lemma fill_pattern (n : nat) :
  to_uint8 <$> seqZ 0 (256 * Z.of_nat n) = mjoin (replicate n (seqZ 0 256)).
Proof.
  induction n as [|n IH]; [done|].
  replace (256 * Z.of_nat (S n)) with (256 * Z.of_nat n + 256) by lia.
  rewrite seqZ_app by lia. rewrite fmap_app, IH, Z.add_0_l.
  rewrite to_uint8_period, replicate_S_end, join_app.
  change (mjoin [seqZ 0 256]) with (seqZ 0 256 ++ []).
  by rewrite app_nil_r.
Qed.

Lemma offsets_of_stores (f : Z -> Z) (l : list Z) :
  ((fun x => (x, f x)) <$> l).*1 = l.
Proof. induction l as [|x l IH]; [done|]. rewrite !fmap_cons. by rewrite IH. Qed.

End BlockContents.

(** ** loop.c: further properties of the fill *)
Section BufferFillFurther.
Import BufferFill.
Local Opaque seqZ Z.to_nat.

(** X1 (loop invariant): with the block allocated, a run stopped after
    [fuel] iterations of the loop, [fuel] at most 1,048,576, has the bytes
    at the offsets below [fuel] equal to their offset mod 256, and every
    byte from offset [fuel] on still as the fresh memory held it. *)
Theorem BufferFill_loop_invariant P env fs fuel :
  malloc_succeeds P 1048576 = true -> Z.of_nat fuel <= 1048576 ->
  exists s b bytes,
    run P env fs fuel = OutOfFuel s /\
    Ev_malloc 1048576 (Ptr b) ∈ trace s /\
    heap s !! b = Some bytes /\
    (forall i, 0 <= i < Z.of_nat fuel -> bytes !! Z.to_nat i = Some (i mod 256)) /\
    (forall i, Z.of_nat fuel <= i < 1048576 ->
       bytes !! Z.to_nat i = Some (garbage P (Z.to_nat i) mod 256)).
Proof.
  change 1048576 with BUFSIZE. intros Hok Hfuel.
  pose proof BUFSIZE_fits_int as HB.
  rewrite run_allocated by done.
  replace (Z.to_nat BUFSIZE <? fuel)%nat with false
    by (symmetry; apply Nat.ltb_ge; lia).
  eexists _, 0%nat, _. split; [reflexivity|].
  cbn [after_stores trace heap allocated].
  split; [apply elem_of_app; left; apply list_elem_of_here|].
  split; [apply lookup_insert_eq|].
  split.
  - intros i Hi. by apply lookup_partly_filled_lt.
  - intros i Hi. rewrite lookup_partly_filled_ge by lia.
    apply lookup_fresh_bytes. lia.
Qed.

Lemma BufferFill_loop_invariant_witness :
  exists s b bytes,
    run Samples.P0 ∅ ∅ 5 = OutOfFuel s /\
    Ev_malloc 1048576 (Ptr b) ∈ trace s /\
    heap s !! b = Some bytes /\
    (forall i, 0 <= i < Z.of_nat 5 -> bytes !! Z.to_nat i = Some (i mod 256)) /\
    (forall i, Z.of_nat 5 <= i < 1048576 ->
       bytes !! Z.to_nat i = Some (garbage Samples.P0 (Z.to_nat i) mod 256)).
Proof.
  apply (BufferFill_loop_invariant Samples.P0 ∅ ∅ 5); [reflexivity | lia].
Defined.

(** X2 (one store per byte): a completed run stores to every offset of
    the block exactly once: the offsets stored to have no repetition, each
    offset in [0, 1048576) is among them and no other is, and every value
    stored is a byte, in [0, 256). *)
Theorem BufferFill_one_store_per_byte P env fs fuel :
  malloc_succeeds P 1048576 = true -> 1048576 < Z.of_nat fuel ->
  exists s,
    run P env fs fuel = Done 0 s /\
    NoDup (volatile_stores (trace s)).*1 /\
    (forall i, i ∈ (volatile_stores (trace s)).*1 <-> 0 <= i < 1048576) /\
    (forall i v, (i, v) ∈ volatile_stores (trace s) -> 0 <= v < 256).
Proof.
  change 1048576 with BUFSIZE. intros Hok Hfuel.
  eexists. split; [by apply run_done|].
  cbn [trace]. autorewrite with trace. rewrite offsets_of_stores.
  split; [apply NoDup_seqZ|]. split.
  - intros i. rewrite elem_of_seqZ. lia.
  - intros i v [x [Heq _]]%list_elem_of_fmap. injection Heq as -> ->.
    apply Z.mod_pos_bound. done.
Qed.

Lemma BufferFill_one_store_per_byte_witness :
  exists s,
    run Samples.P1 ∅ ∅ (Z.to_nat 1048577) = Done 0 s /\
    NoDup (volatile_stores (trace s)).*1 /\
    (forall i, i ∈ (volatile_stores (trace s)).*1 <-> 0 <= i < 1048576) /\
    (forall i v, (i, v) ∈ volatile_stores (trace s) -> 0 <= v < 256).
Proof.
  apply (BufferFill_one_store_per_byte Samples.P1 ∅ ∅ (Z.to_nat 1048577));
    [reflexivity | lia].
Defined.

(** X3 (the pattern): the block a completed run leaves is the bytes
    0, 1, ..., 255 repeated 4096 times; so the byte 256 offsets further on
    is the same byte. *)
Theorem BufferFill_pattern P env fs fuel :
  malloc_succeeds P 1048576 = true -> 1048576 < Z.of_nat fuel ->
  exists s b bytes,
    run P env fs fuel = Done 0 s /\
    Ev_malloc 1048576 (Ptr b) ∈ trace s /\
    heap s !! b = Some bytes /\
    bytes = mjoin (replicate (Z.to_nat 4096) (seqZ 0 256)) /\
    (forall i, 0 <= i -> i + 256 < 1048576 ->
       bytes !! Z.to_nat (i + 256) = bytes !! Z.to_nat i).
Proof.
  change 1048576 with BUFSIZE. intros Hok Hfuel.
  eexists _, 0%nat, _. split; [by apply run_done|].
  cbn [trace heap]. split; [apply list_elem_of_here|].
  split; [apply lookup_singleton_eq|].
  split.
  - replace BUFSIZE with (256 * Z.of_nat (Z.to_nat 4096))
      by (rewrite Z2Nat.id by lia; reflexivity).
    apply fill_pattern.
  - intros i Hi0 Hi. rewrite !lookup_filled by lia. f_equal.
    unfold to_uint8, uint8_modulus. change (2 ^ 8) with 256.
    replace (i + 256) with (i + 1 * 256) by lia. apply Z_mod_plus_full.
Qed.

Lemma BufferFill_pattern_witness :
  exists s b bytes,
    run Samples.P0 ∅ ∅ (Z.to_nat 1048577) = Done 0 s /\
    Ev_malloc 1048576 (Ptr b) ∈ trace s /\
    heap s !! b = Some bytes /\
    bytes = mjoin (replicate (Z.to_nat 4096) (seqZ 0 256)) /\
    (forall i, 0 <= i -> i + 256 < 1048576 ->
       bytes !! Z.to_nat (i + 256) = bytes !! Z.to_nat i).
Proof.
  apply (BufferFill_pattern Samples.P0 ∅ ∅ (Z.to_nat 1048577)); [reflexivity | lia].
Defined.

End BufferFillFurther.

(** ** Decimal text: length and reading back *)
Section DecimalFurther.

Lemma string_length_app (s t : string) :
  String.length (s +:+ t) = (String.length s + String.length t)%nat.
Proof.
  induction s as [|c s IH]; [done|].
  change (String c s +:+ t) with (String c (s +:+ t)).
  cbn [String.length]. by rewrite IH.
Qed.

Lemma app_newline_inj (x y : string) : x +:+ newline = y +:+ newline -> x = y.
Proof.
  revert y. induction x as [|c x IH]; intros [|d y] Heq.
  - done.
  - injection Heq as _ Heq. by destruct y.
  - injection Heq as _ Heq. by destruct x.
  - injection Heq as -> Heq. f_equal. by apply IH.
Qed.

(** [utoa] writes different texts for different 64-bit values. *)
Lemma utoa_inj v1 v2 : is_uint64 v1 -> is_uint64 v2 -> utoa v1 = utoa v2 -> v1 = v2.
Proof.
  intros H1 H2 Heq.
  destruct (utoa_decimal v1 H1) as (_ & Hr1 & _).
  destruct (utoa_decimal v2 H2) as (_ & Hr2 & _).
  rewrite Heq in Hr1. congruence.
Qed.

(** A value below [10 ^ (k + 1)] is written with at most [k + 1] digits. *)
Lemma length_utoa_aux_le (fuel : nat) : forall n acc (k : nat),
  0 <= n < 10 ^ (Z.of_nat k + 1) ->
  (String.length (utoa_aux fuel n acc) <= String.length acc + 1 + k)%nat.
Proof.
  induction fuel as [|fuel IH]; intros n acc k Hn; cbn [utoa_aux].
  - cbn [String.length]. lia.
  - destruct (Z.eqb_spec (n / 10) 0) as [Hq|Hq]; [cbn [String.length]; lia|].
    pose proof (Z.div_mod n 10 ltac:(lia)) as Hdm.
    pose proof (Z.mod_pos_bound n 10 ltac:(lia)) as Hm.
    assert (0 <= n / 10) by (apply Z.div_pos; lia).
    destruct k as [|k].
    { change (10 ^ (Z.of_nat 0 + 1)) with 10 in Hn. lia. }
    specialize (IH (n / 10) (String (digit_char (n mod 10)) acc) k).
    cbn [String.length] in IH.
    assert (n / 10 < 10 ^ (Z.of_nat k + 1)).
    { apply Z.div_lt_upper_bound; [lia|].
      replace (Z.of_nat (S k) + 1) with (Z.succ (Z.of_nat k + 1)) in Hn by lia.
      rewrite Z.pow_succ_r in Hn by lia. lia. }
    specialize (IH ltac:(lia)). lia.
Qed.

Lemma length_utoa_aux_min (fuel : nat) : forall n acc,
  (String.length acc + 1 <= String.length (utoa_aux fuel n acc))%nat.
Proof.
  induction fuel as [|fuel IH]; intros n acc; cbn [utoa_aux].
  - cbn [String.length]. lia.
  - destruct (n / 10 =? 0); [cbn [String.length]; lia|].
    specialize (IH (n / 10) (String (digit_char (n mod 10)) acc)).
    cbn [String.length] in IH. lia.
Qed.

(** A value from [10 ^ k] on is written with at least [k + 1] digits, when
    the budget allows as many. *)
Lemma length_utoa_aux_ge (fuel : nat) : forall n acc (k : nat),
  10 ^ Z.of_nat k <= n -> (k <= fuel)%nat ->
  (String.length acc + 1 + k <= String.length (utoa_aux fuel n acc))%nat.
Proof.
  induction fuel as [|fuel IH]; intros n acc k Hn Hk; cbn [utoa_aux].
  - cbn [String.length]. lia.
  - destruct k as [|k].
    { pose proof (length_utoa_aux_min (S fuel) n acc) as Hmin.
      cbn [utoa_aux] in Hmin. lia. }
    assert (Hge : 10 ^ Z.of_nat k <= n / 10).
    { apply Z.div_le_lower_bound; [lia|].
      replace (Z.of_nat (S k)) with (Z.succ (Z.of_nat k)) in Hn by lia.
      rewrite Z.pow_succ_r in Hn by lia. lia. }
    assert (0 < 10 ^ Z.of_nat k) by (apply Z.pow_pos_nonneg; lia).
    destruct (Z.eqb_spec (n / 10) 0) as [Hq|Hq]; [lia|].
    specialize (IH (n / 10) (String (digit_char (n mod 10)) acc) k Hge ltac:(lia)).
    cbn [String.length] in IH. lia.
Qed.

Lemma uint64_below_10_pow_20 v : is_uint64 v -> 0 <= v < 10 ^ (Z.of_nat 19 + 1).
Proof.
  unfold is_uint64, uint64_modulus. intros Hv.
  assert (2 ^ 64 < 10 ^ (Z.of_nat 19 + 1)) by (vm_compute; reflexivity). lia.
Qed.

(** A 64-bit value is written with 1 to 20 digits. *)
Lemma length_utoa_bounds v :
  is_uint64 v -> (1 <= String.length (utoa v) <= 20)%nat.
Proof.
  intros Hv%uint64_below_10_pow_20. unfold utoa.
  pose proof (length_utoa_aux_min 19 v EmptyString) as Hmin.
  pose proof (length_utoa_aux_le 19 v EmptyString 19 Hv) as Hmax.
  cbn [String.length] in Hmin, Hmax. lia.
Qed.

Lemma length_utoa_small v : 0 <= v < 10 -> String.length (utoa v) = 1%nat.
Proof.
  intros Hv. unfold utoa.
  pose proof (length_utoa_aux_min 19 v EmptyString) as Hmin.
  pose proof (length_utoa_aux_le 19 v EmptyString 0 Hv) as Hmax.
  cbn [String.length] in Hmin, Hmax. lia.
Qed.

(** A 64-bit value from [10 ^ k] up to [10 ^ (k + 1) - 1] is written with
    [k + 1] digits. *)
Lemma length_utoa_digits v (k : nat) :
  is_uint64 v -> 10 ^ Z.of_nat k <= v < 10 ^ (Z.of_nat k + 1) ->
  String.length (utoa v) = S k.
Proof.
  intros Hv%uint64_below_10_pow_20 Hk.
  assert (Hk19 : (k <= 19)%nat).
  { destruct (le_lt_dec k 19) as [|Hgt]; [done|].
    assert (10 ^ (Z.of_nat 19 + 1) <= 10 ^ Z.of_nat k)
      by (apply Z.pow_le_mono_r; lia).
    lia. }
  unfold utoa.
  pose proof (length_utoa_aux_le 19 v EmptyString k ltac:(lia)) as Hle.
  pose proof (length_utoa_aux_ge 19 v EmptyString k ltac:(lia) Hk19) as Hge.
  cbn [String.length] in Hle, Hge. lia.
Qed.

End DecimalFurther.

(** ** mach_absolute_time.c: further properties of the line written *)
Section TimeReaderFurther.
Import TimeReader.
Local Opaque utoa.

Lemma stdout_time P env fs :
  stdout (state_of (run P env fs)) =
  "Time is " +:+ utoa (to_uint64 (ticks P 0%nat)) +:+ newline.
Proof. by rewrite run_time. Qed.

(** X4 (the line determines the counter): two runs write the same text
    exactly when they read the same counter value; the text can be read
    back to the value. *)
Theorem TimeReader_output_injective P1 P2 env1 fs1 env2 fs2 :
  stdout (state_of (run P1 env1 fs1)) = stdout (state_of (run P2 env2 fs2)) <->
  to_uint64 (ticks P1 0%nat) = to_uint64 (ticks P2 0%nat).
Proof.
  rewrite !stdout_time. split.
  - intros Heq. cbn [append] in Heq.
    injection Heq as Heq. apply app_newline_inj in Heq.
    apply utoa_inj in Heq; [done | apply to_uint64_range..].
  - by intros ->.
Qed.

(** X5 (length of the line): the line written has between 10 and 29
    characters, the newline included: 10 for a counter value below 10, and
    [10 + k] for a value from [10 ^ k] up to [10 ^ (k + 1) - 1]. *)
Theorem TimeReader_line_length P env fs :
  (10 <= String.length (stdout (state_of (run P env fs))) <= 29)%nat /\
  (to_uint64 (ticks P 0%nat) < 10 ->
     String.length (stdout (state_of (run P env fs))) = 10%nat) /\
  (forall k : nat,
     10 ^ Z.of_nat k <= to_uint64 (ticks P 0%nat) < 10 ^ (Z.of_nat k + 1) ->
     String.length (stdout (state_of (run P env fs))) = (10 + k)%nat).
Proof.
  rewrite stdout_time. rewrite !string_length_app.
  change (String.length "Time is ") with 8%nat.
  change (String.length newline) with 1%nat.
  pose proof (to_uint64_range (ticks P 0%nat)) as Hv.
  pose proof (length_utoa_bounds _ Hv) as Hb.
  split; [lia|]. split.
  - intros Hlt. rewrite length_utoa_small; [lia|].
    unfold is_uint64 in Hv. lia.
  - intros k Hk. rewrite (length_utoa_digits _ k) by done. lia.
Qed.

Lemma TimeReader_line_length_witness :
  String.length (stdout (state_of (run (Samples.Pt 123456789) ∅ ∅))) = (10 + 8)%nat.
Proof.
  apply (TimeReader_line_length (Samples.Pt 123456789) ∅ ∅).
  change (to_uint64 (ticks (Samples.Pt 123456789) 0%nat)) with 123456789.
  change (10 ^ Z.of_nat 8) with 100000000.
  change (10 ^ (Z.of_nat 8 + 1)) with 1000000000. lia.
Defined.

(** X6 (one read, and nothing else of the platform matters): a run reads
    the timer exactly once, before it writes its one line; the allocator,
    the fresh memory, the command line and the later values of the counter
    have no influence: a platform with the same first counter value gives
    the same text and the same events. *)
Theorem TimeReader_reads_once P env fs :
  exists s,
    run P env fs = Done 0 s /\
    clock_reads s = 1%nat /\
    trace s = [Ev_clock (to_uint64 (ticks P 0%nat)); Ev_stdout (stdout s)] /\
    (forall P' env' fs',
       to_uint64 (ticks P' 0%nat) = to_uint64 (ticks P 0%nat) ->
       exists s', run P' env' fs' = Done 0 s' /\
                  stdout s' = stdout s /\ trace s' = trace s).
Proof.
  rewrite run_time. eexists. split; [reflexivity|].
  cbn [clock_reads trace stdout]. do 2 (split; [reflexivity|]).
  intros P' env' fs' Heq. rewrite run_time, Heq. eexists. by split.
Qed.

End TimeReaderFurther.
